(** * fsutils: filesystem-metadata predicates over a stat snapshot

    A shallow embedding of [system_path.go] (package [fsutils]) and
    [user_permissions.go] (package [fsutil]), together with the small part
    of the Go standard library ([os], [syscall]) those files call.

    Conventions.
    - [uint32] values ([os.FileMode], [Stat_t.Uid], [Stat_t.Gid]) are [N];
      Go's [int] (what [syscall.Getuid] returns) is [Z], and the conversion
      [uint32(x)] is written out as a reduction modulo 2^32.
    - An interface value that may be [nil] ([os.FileInfo], [error]) is an
      [option].
    - A call that may end in a run-time panic returns a [result]. *)

From Stdlib Require Import NArith ZArith Bool String Ascii List Lia.
Import ListNotations.

Local Open Scope string_scope.
Local Open Scope N_scope.

(** ** Outcomes of a Go call *)

(** Either the call returns a value or the goroutine panics (here always
    the nil dereference of calling a method on a nil interface). *)
Inductive result (A : Type) : Type :=
| Ok (a : A)
| Panic.

Arguments Ok {A} a.
Arguments Panic {A}.

Definition bind {A B : Type} (c : result A) (k : A -> result B) : result B :=
  match c with
  | Ok a => k a
  | Panic => Panic
  end.

Declare Scope go_scope.
Delimit Scope go_scope with go.
Notation "x <- c ;; k" := (bind c (fun x => k))
  (at level 61, c at next level, right associativity) : go_scope.
Notation "' p <- c ;; k" := (bind c (fun x => let 'p := x in k))
  (at level 61, p pattern, c at next level, right associativity) : go_scope.
Local Open Scope go_scope.

(** Calling a method through an interface value: a nil interface panics. *)
Definition deref {A : Type} (v : option A) : result A :=
  match v with
  | Some a => Ok a
  | None => Panic
  end.

(** An octal literal, most significant digit first: [octal [4;0;0]] is
    Go's [00400]. *)
Definition octal (digits : list N) : N :=
  fold_left (fun acc d => 8 * acc + d) digits 0.

(** [uint32(x)] for a Go [int]. *)
Definition uint32 (x : Z) : N := Z.to_N (x mod 2 ^ 32).

(** ** Go's [error] values, as far as [os.Stat] and [os.Getwd] produce them *)

Inductive error : Type :=
| Errno (e : N)                              (* syscall.Errno *)
| ErrNotExist                                (* oserror.ErrNotExist *)
| ErrPermission                              (* oserror.ErrPermission *)
| ErrExist                                   (* oserror.ErrExist *)
| PathError (Op Path : string) (Err : error) (* *fs.PathError *)
| LinkError (Op Old New : string) (Err : error)
| SyscallError (Syscall : string) (Err : error)
| errorString (s : string).                  (* errors.New *)

(** ** Package [syscall] (unix) *)

Module syscall.

Definition ENOENT : N := 2.
Definition EACCES : N := 13.
Definition EPERM : N := 1.

(** The two fields of [Stat_t] the package reads. *)
Record Stat_t : Type := { Uid : N; Gid : N }.

(** Credentials of the calling process. *)
Record Cred : Type := { ruid : Z; rgid : Z; euid : Z; egid : Z }.

End syscall.

(** ** Package [os] *)

Module os.

Definition FileMode : Type := N.

Definition ModeDir : FileMode := N.shiftl 1 31.
Definition ModeAppend : FileMode := N.shiftl 1 30.
Definition ModeExclusive : FileMode := N.shiftl 1 29.
Definition ModeTemporary : FileMode := N.shiftl 1 28.
Definition ModeSymlink : FileMode := N.shiftl 1 27.
Definition ModeDevice : FileMode := N.shiftl 1 26.
Definition ModeNamedPipe : FileMode := N.shiftl 1 25.
Definition ModeSocket : FileMode := N.shiftl 1 24.
Definition ModeSetuid : FileMode := N.shiftl 1 23.
Definition ModeSetgid : FileMode := N.shiftl 1 22.
Definition ModeCharDevice : FileMode := N.shiftl 1 21.
Definition ModeSticky : FileMode := N.shiftl 1 20.
Definition ModeIrregular : FileMode := N.shiftl 1 19.

Definition ModeType : FileMode :=
  N.lor ModeDir (N.lor ModeSymlink (N.lor ModeNamedPipe
    (N.lor ModeSocket (N.lor ModeDevice (N.lor ModeCharDevice ModeIrregular))))).

Definition ModePerm : FileMode := octal [7; 7; 7].

(** [func (m FileMode) IsRegular() bool] *)
Definition IsRegular (m : FileMode) : bool := N.land m ModeType =? 0.

(** [func (m FileMode) Perm() FileMode] *)
Definition Perm (m : FileMode) : FileMode := N.land m ModePerm.

(** What a non-nil [os.FileInfo] returned by [os.Stat] answers. *)
Record FileInfo : Type := {
  Name : string;
  Size : Z;
  Mode : FileMode;
  Sys : syscall.Stat_t
}.

Definition PathSeparator : ascii := "/"%char.

(** [underlyingError] unwraps one level of the three wrapper types. *)
Definition underlyingError (err : error) : error :=
  match err with
  | PathError _ _ e => e
  | LinkError _ _ _ e => e
  | SyscallError _ e => e
  | e => e
  end.

(** [os.IsNotExist]: the unwrapped error is the [ErrNotExist] sentinel or
    the errno [ENOENT]; false on [nil]. *)
Definition IsNotExist (err : option error) : bool :=
  match err with
  | None => false
  | Some e =>
      match underlyingError e with
      | ErrNotExist => true
      | Errno n => n =? syscall.ENOENT
      | _ => false
      end
  end.

End os.

(** ** The host the process runs on *)

(** What the three system services the package calls answer at a given
    moment: [stat(2)] per path, the credentials, and the working-directory
    lookup of [os.Getwd] (the value of [$PWD] when it names the current
    directory, otherwise the path the kernel reports). *)
Record Host : Type := {
  files : string -> os.FileInfo + N;
  cred : syscall.Cred;
  cwd : string + N
}.

(** [os.Stat]: the file information and a nil error, or a nil
    [FileInfo] and a [*PathError] wrapping the errno. *)
Definition os_Stat (h : Host) (name : string) : option os.FileInfo * option error :=
  match files h name with
  | inl fi => (Some fi, None)
  | inr e => (None, Some (PathError "stat" name (Errno e)))
  end.

(** [os.Getwd] *)
Definition os_Getwd (h : Host) : string * option error :=
  match cwd h with
  | inl dir => (dir, None)
  | inr e => ("", Some (SyscallError "getwd" (Errno e)))
  end.

Definition syscall_Getuid (h : Host) : Z := syscall.ruid (cred h).
Definition syscall_Getgid (h : Host) : Z := syscall.rgid (cred h).
Definition syscall_Geteuid (h : Host) : Z := syscall.euid (cred h).
Definition syscall_Getegid (h : Host) : Z := syscall.egid (cred h).

(** ** user_permissions.go *)

Module fsutil.

Record UserDetails : Type := { uid : Z; gid : Z; euid : Z; egid : Z }.

Definition InitUser (h : Host) : UserDetails :=
  {| uid := syscall_Getuid h;
     gid := syscall_Getgid h;
     euid := syscall_Geteuid h;
     egid := syscall_Getegid h |}.

Definition GetUID (u : UserDetails) : Z := uid u.
Definition GetGID (u : UserDetails) : Z := gid u.
Definition GetEUid (u : UserDetails) : Z := euid u.
Definition GetEGid (u : UserDetails) : Z := egid u.

End fsutil.

(** ** system_path.go *)

Record SystemPath : Type := {
  stat : option os.FileInfo;
  err : option error
}.

Definition IRUSR : os.FileMode := octal [4; 0; 0].
Definition IREAD : os.FileMode := octal [4; 0; 0].
Definition IWUSR : os.FileMode := octal [2; 0; 0].
Definition IWRITE : os.FileMode := octal [2; 0; 0].
Definition IXUSR : os.FileMode := octal [1; 0; 0].
Definition IEXEC : os.FileMode := octal [1; 0; 0].
Definition IRGRP : os.FileMode := octal [0; 4; 0].
Definition IWGRP : os.FileMode := octal [0; 2; 0].
Definition IXGRP : os.FileMode := octal [0; 1; 0].
Definition IROTH : os.FileMode := octal [0; 0; 4].
Definition IWOTH : os.FileMode := octal [0; 0; 2].
Definition IXOTH : os.FileMode := octal [0; 0; 1].

Definition SystemInit (h : Host) (path : string) : SystemPath :=
  let '(stat, err) := os_Stat h path in
  {| stat := stat; err := err |}.

Definition HaveError (s : SystemPath) : bool :=
  match err s with
  | Some _ => true
  | None => false
  end.

Definition Error (s : SystemPath) : option error := err s.

Definition IsStat (s : SystemPath) (istat : os.FileMode) : result bool :=
  match err s with
  | Some _ => Ok false
  | None =>
      fi <- deref (stat s) ;;
      Ok (N.land (os.Mode fi) istat =? istat)
  end.

Definition IsDir (s : SystemPath) : result bool := IsStat s os.ModeDir.

Definition IsExist (s : SystemPath) : bool :=
  Bool.eqb (os.IsNotExist (err s)) false.

Definition IsSymlink (s : SystemPath) : result bool := IsStat s os.ModeSymlink.
Definition IsAppend (s : SystemPath) : result bool := IsStat s os.ModeAppend.
Definition IsExclusive (s : SystemPath) : result bool := IsStat s os.ModeExclusive.
Definition IsTemporary (s : SystemPath) : result bool := IsStat s os.ModeTemporary.
Definition IsDevice (s : SystemPath) : result bool := IsStat s os.ModeDevice.
Definition IsNamedPipe (s : SystemPath) : result bool := IsStat s os.ModeNamedPipe.
Definition IsSocket (s : SystemPath) : result bool := IsStat s os.ModeSocket.
Definition IsCharDevice (s : SystemPath) : result bool := IsStat s os.ModeCharDevice.
Definition HasSetUID (s : SystemPath) : result bool := IsStat s os.ModeSetuid.
Definition HasSetGid (s : SystemPath) : result bool := IsStat s os.ModeSetgid.
Definition IsSticky (s : SystemPath) : result bool := IsStat s os.ModeSticky.

Definition IsRegularFile (s : SystemPath) : result bool :=
  match err s with
  | Some _ => Ok false
  | None =>
      fi <- deref (stat s) ;;
      Ok (os.IsRegular (os.Mode fi))
  end.

Definition HavePerm (s : SystemPath) (perm : os.FileMode) : result bool :=
  match err s with
  | Some _ => Ok false
  | None =>
      fi <- deref (stat s) ;;
      Ok (N.land (os.Perm (os.Mode fi)) perm =? perm)
  end.

Definition IsOwnerReadable (s : SystemPath) : result bool := HavePerm s IRUSR.
Definition IsOwnerWriteable (s : SystemPath) : result bool := HavePerm s IWUSR.
Definition IsOwnerExecutable (s : SystemPath) : result bool := HavePerm s IXUSR.
Definition IsGroupReadable (s : SystemPath) : result bool := HavePerm s IRGRP.
Definition IsGroupWriteable (s : SystemPath) : result bool := HavePerm s IWGRP.
Definition IsGroupExecutable (s : SystemPath) : result bool := HavePerm s IXGRP.
Definition IsOtherReadable (s : SystemPath) : result bool := HavePerm s IROTH.
Definition IsOtherWriteable (s : SystemPath) : result bool := HavePerm s IWOTH.
Definition IsOtherExecutable (s : SystemPath) : result bool := HavePerm s IXOTH.

(** [s.stat.Sys()] is called with no look at [s.err]; the guard [uid >= 0]
    is on a [uint32]. *)
Definition GetUID (s : SystemPath) : result (N * option error) :=
  fi <- deref (stat s) ;;
  let uid := syscall.Uid (os.Sys fi) in
  if 0 <=? uid then Ok (uid, None)
  else Ok (0, Some (errorString "Invalid value for uid")).

(** The source reads the [Uid] field here as well. *)
Definition GetGID (s : SystemPath) : result (N * option error) :=
  fi <- deref (stat s) ;;
  let gid := syscall.Uid (os.Sys fi) in
  if 0 <=? gid then Ok (gid, None)
  else Ok (0, Some (errorString "Invalid value for gid")).

Definition IsReadable (h : Host) (s : SystemPath) : result bool :=
  let user := fsutil.InitUser h in
  let useruid := fsutil.GetUID user in
  let usergid := fsutil.GetGID user in
  '(fileuid, _) <- GetUID s ;;
  '(filegid, _) <- GetGID s ;;
  if fileuid =? uint32 useruid then IsOwnerReadable s
  else if filegid =? uint32 usergid then IsGroupReadable s
  else IsOtherReadable s.

Definition IsWriteable (h : Host) (s : SystemPath) : result bool :=
  let user := fsutil.InitUser h in
  let useruid := fsutil.GetUID user in
  let usergid := fsutil.GetGID user in
  '(fileuid, _) <- GetUID s ;;
  '(filegid, _) <- GetGID s ;;
  if fileuid =? uint32 useruid then IsOwnerWriteable s
  else if filegid =? uint32 usergid then IsGroupWriteable s
  else IsOtherWriteable s.

Definition IsExecutible (h : Host) (s : SystemPath) : result bool :=
  let user := fsutil.InitUser h in
  let useruid := fsutil.GetUID user in
  let usergid := fsutil.GetGID user in
  '(fileuid, _) <- GetUID s ;;
  '(filegid, _) <- GetGID s ;;
  if fileuid =? uint32 useruid then IsOwnerExecutable s
  else if filegid =? uint32 usergid then IsGroupExecutable s
  else IsOtherExecutable s.

Definition Size (s : SystemPath) : result Z :=
  fi <- deref (stat s) ;;
  Ok (os.Size fi).

Definition GetCurrentDir (h : Host) (endseperator : bool) : string :=
  let '(dir, err) := os_Getwd h in
  match err with
  | Some _ => ""
  | None =>
      if endseperator then dir ++ String os.PathSeparator "" else dir
  end.

(** ** The boolean queries as one family *)

(** Every method of [SystemPath] that returns [bool], so that a statement
    can range over "any predicate". *)
Inductive Predicate : Type :=
| PHaveError
| PIsStat (istat : os.FileMode)
| PIsDir | PIsExist | PIsSymlink | PIsAppend | PIsExclusive | PIsTemporary
| PIsDevice | PIsNamedPipe | PIsSocket | PIsCharDevice
| PHasSetUID | PHasSetGid | PIsSticky | PIsRegularFile
| PHavePerm (perm : os.FileMode)
| PIsOwnerReadable | PIsOwnerWriteable | PIsOwnerExecutable
| PIsGroupReadable | PIsGroupWriteable | PIsGroupExecutable
| PIsOtherReadable | PIsOtherWriteable | PIsOtherExecutable
| PIsReadable | PIsWriteable | PIsExecutible.

(** One call of predicate [p] on snapshot [s], made while the host is in
    state [h]. *)
Definition call (h : Host) (p : Predicate) (s : SystemPath) : result bool :=
  match p with
  | PHaveError => Ok (HaveError s)
  | PIsStat istat => IsStat s istat
  | PIsDir => IsDir s
  | PIsExist => Ok (IsExist s)
  | PIsSymlink => IsSymlink s
  | PIsAppend => IsAppend s
  | PIsExclusive => IsExclusive s
  | PIsTemporary => IsTemporary s
  | PIsDevice => IsDevice s
  | PIsNamedPipe => IsNamedPipe s
  | PIsSocket => IsSocket s
  | PIsCharDevice => IsCharDevice s
  | PHasSetUID => HasSetUID s
  | PHasSetGid => HasSetGid s
  | PIsSticky => IsSticky s
  | PIsRegularFile => IsRegularFile s
  | PHavePerm perm => HavePerm s perm
  | PIsOwnerReadable => IsOwnerReadable s
  | PIsOwnerWriteable => IsOwnerWriteable s
  | PIsOwnerExecutable => IsOwnerExecutable s
  | PIsGroupReadable => IsGroupReadable s
  | PIsGroupWriteable => IsGroupWriteable s
  | PIsGroupExecutable => IsGroupExecutable s
  | PIsOtherReadable => IsOtherReadable s
  | PIsOtherWriteable => IsOtherWriteable s
  | PIsOtherExecutable => IsOtherExecutable s
  | PIsReadable => IsReadable h s
  | PIsWriteable => IsWriteable h s
  | PIsExecutible => IsExecutible h s
  end.

(** The predicates whose body calls [InitUser]. *)
Definition calls_InitUser (p : Predicate) : bool :=
  match p with
  | PIsReadable | PIsWriteable | PIsExecutible => true
  | _ => false
  end.

(** ** Vocabulary of the statements *)

(** An error "indicates path not found": after the one level of unwrapping
    [os.IsNotExist] performs it is the [ErrNotExist] sentinel or [ENOENT]. *)
Definition not_found (e : error) : Prop :=
  os.underlyingError e = ErrNotExist \/
  os.underlyingError e = Errno syscall.ENOENT.

(** Bit [i] belongs to the permission portion of a mode and is set. *)
Definition perm_bit_set (m : os.FileMode) (i : N) : Prop :=
  i < 9 /\ N.testbit m i = true.

Fixpoint last_char (s : string) : option ascii :=
  match s with
  | EmptyString => None
  | String c EmptyString => Some c
  | String _ rest => last_char rest
  end.

Definition ends_with_separator (s : string) : bool :=
  match last_char s with
  | Some c => Ascii.eqb c os.PathSeparator
  | None => false
  end.

(** A string without its last character. *)
Fixpoint drop_last (s : string) : string :=
  match s with
  | EmptyString => EmptyString
  | String _ EmptyString => EmptyString
  | String c rest => String c (drop_last rest)
  end.

(** The resolution as the specification words it: owner, then group, then
    other, where the group test compares the path's group id with the
    process's real group id. [owner], [group] and [other] are the class
    bits of the requested access. *)
Definition spec_resolve (h : Host) (fi : os.FileInfo)
    (owner group other : os.FileMode) : bool :=
  let has bit := N.land (os.Perm (os.Mode fi)) bit =? bit in
  if syscall.Uid (os.Sys fi) =? uint32 (syscall_Getuid h) then has owner
  else if syscall.Gid (os.Sys fi) =? uint32 (syscall_Getgid h) then has group
  else has other.

(** The resolution the three methods perform: the second test compares the
    value [GetGID] returned. *)
Definition code_resolve (h : Host) (fi : os.FileInfo)
    (owner group other : os.FileMode) : bool :=
  let has bit := N.land (os.Perm (os.Mode fi)) bit =? bit in
  if syscall.Uid (os.Sys fi) =? uint32 (syscall_Getuid h) then has owner
  else if syscall.Uid (os.Sys fi) =? uint32 (syscall_Getgid h) then has group
  else has other.

(** ** Concrete hosts and files *)

Module Sample.

(** A regular file, mode 0770, owned by user 1000 and group 2000. *)
Definition report : os.FileInfo :=
  {| os.Name := "report.txt"; os.Size := 4096;
     os.Mode := octal [7; 7; 0];
     os.Sys := {| syscall.Uid := 1000; syscall.Gid := 2000 |} |}.

(** A regular file, mode 0600, owned by root. *)
Definition shadow : os.FileInfo :=
  {| os.Name := "shadow"; os.Size := 1201;
     os.Mode := octal [6; 0; 0];
     os.Sys := {| syscall.Uid := 0; syscall.Gid := 0 |} |}.

(** A directory with none of the nine permission bits, owned by root. *)
Definition sealed : os.FileInfo :=
  {| os.Name := "sealed"; os.Size := 0;
     os.Mode := os.ModeDir;
     os.Sys := {| syscall.Uid := 0; syscall.Gid := 0 |} |}.

Definition tree (name : string) : os.FileInfo + N :=
  if String.eqb name "/srv/report.txt" then inl report
  else if String.eqb name "/etc/shadow" then inl shadow
  else if String.eqb name "/root/secret" then inr syscall.EACCES
  else inr syscall.ENOENT.

Definition as_user (u g : Z) : syscall.Cred :=
  {| syscall.ruid := u; syscall.rgid := g;
     syscall.euid := u; syscall.egid := g |}.

(** A process of user 500 whose real group is 2000. *)
Definition member : Host :=
  {| files := tree; cred := as_user 500 2000; cwd := inl "/srv" |}.

(** A process running as root, and the same process after [setuid(1000)]. *)
Definition root : Host :=
  {| files := tree; cred := as_user 0 0; cwd := inl "/" |}.
Definition dropped : Host :=
  {| files := tree; cred := as_user 1000 1000; cwd := inl "/" |}.

(** The same user and group as [member], after the tree was removed. *)
Definition emptied : Host :=
  {| files := fun _ => inr syscall.ENOENT;
     cred := as_user 500 2000; cwd := inl "/srv" |}.

(** A process in [/srv] that was started with [PWD=/srv/]: [os.Getwd]
    answers with that value as it stands. *)
Definition slashed : Host :=
  {| files := tree; cred := as_user 500 2000; cwd := inl "/srv/" |}.

(** A process whose working directory has been removed. *)
Definition lost : Host :=
  {| files := tree; cred := as_user 500 2000; cwd := inr syscall.ENOENT |}.

End Sample.

(** * Properties *)

(** ** Bits *)

Lemma land_eq_iff_subset (a p : N) :
  N.land a p = p <-> (forall i, N.testbit p i = true -> N.testbit a i = true).
Proof.
  split.
  - intros H i Hp. rewrite <- H, N.land_spec in Hp.
    apply andb_true_iff in Hp. tauto.
  - intros H. apply N.bits_inj. intro i. rewrite N.land_spec.
    destruct (N.testbit p i) eqn:E.
    + now rewrite (H i E).
    + apply andb_false_r.
Qed.

Lemma ModePerm_ones : os.ModePerm = N.ones 9.
Proof. reflexivity. Qed.

Lemma Perm_testbit (m : os.FileMode) (i : N) :
  N.testbit (os.Perm m) i = N.testbit m i && (i <? 9).
Proof.
  unfold os.Perm. rewrite N.land_spec, ModePerm_ones. f_equal.
  destruct (N.ltb_spec i 9) as [Hlt | Hge].
  - now apply N.ones_spec_low.
  - now apply N.ones_spec_high.
Qed.

Lemma land_pow2_eqb (a k : N) :
  (N.land a (2 ^ k) =? 2 ^ k) = N.testbit a k.
Proof.
  destruct (N.testbit a k) eqn:E.
  - apply N.eqb_eq, land_eq_iff_subset. intros i Hi.
    rewrite N.pow2_bits_eqb in Hi. apply N.eqb_eq in Hi. now subst i.
  - apply N.eqb_neq. intro H.
    assert (Hk : N.testbit (2 ^ k) k = true) by apply N.pow2_bits_true.
    rewrite <- H, N.land_spec, E in Hk. discriminate.
Qed.

Lemma uint32_guard (id : N) : (0 <=? id) = true.
Proof. apply N.leb_le, N.le_0_l. Qed.

(** ** Construction *)

Lemma SystemInit_found (h : Host) (path : string) (fi : os.FileInfo) :
  files h path = inl fi ->
  SystemInit h path = {| stat := Some fi; err := None |}.
Proof. intros H. unfold SystemInit, os_Stat. now rewrite H. Qed.

Lemma SystemInit_failed (h : Host) (path : string) (e : N) :
  files h path = inr e ->
  SystemInit h path =
    {| stat := None; err := Some (PathError "stat" path (Errno e)) |}.
Proof. intros H. unfold SystemInit, os_Stat. now rewrite H. Qed.

(** A snapshot built by [SystemInit] holds status data exactly when it
    holds no error. *)
Lemma SystemInit_shape (h : Host) (path : string) :
  (exists fi, stat (SystemInit h path) = Some fi /\
              err (SystemInit h path) = None) \/
  (exists e, stat (SystemInit h path) = None /\
             err (SystemInit h path) = Some e).
Proof.
  destruct (files h path) as [fi | e] eqn:E.
  - left. exists fi. now rewrite (SystemInit_found _ _ _ E).
  - right. eexists. now rewrite (SystemInit_failed _ _ _ E).
Qed.

Lemma HaveError_true (s : SystemPath) :
  HaveError s = true -> exists e, err s = Some e.
Proof.
  unfold HaveError. destruct (err s) as [e |]; [now exists e | discriminate].
Qed.

(** ** The guarded predicates *)

Lemma IsStat_failed (s : SystemPath) (e : error) (istat : os.FileMode) :
  err s = Some e -> IsStat s istat = Ok false.
Proof. intros H. unfold IsStat. now rewrite H. Qed.

Lemma IsRegularFile_failed (s : SystemPath) (e : error) :
  err s = Some e -> IsRegularFile s = Ok false.
Proof. intros H. unfold IsRegularFile. now rewrite H. Qed.

Lemma HavePerm_failed (s : SystemPath) (e : error) (perm : os.FileMode) :
  err s = Some e -> HavePerm s perm = Ok false.
Proof. intros H. unfold HavePerm. now rewrite H. Qed.

Lemma HavePerm_found (s : SystemPath) (fi : os.FileInfo) (perm : os.FileMode) :
  stat s = Some fi -> err s = None ->
  HavePerm s perm = Ok (N.land (os.Perm (os.Mode fi)) perm =? perm).
Proof. intros Hs He. unfold HavePerm. now rewrite He, Hs. Qed.

(** A predicate on a single permission bit [2^k], [k < 9], reads bit [k] of
    the mode. *)
Lemma HavePerm_single_bit (s : SystemPath) (fi : os.FileInfo) (k : N) :
  stat s = Some fi -> err s = None -> k < 9 ->
  HavePerm s (2 ^ k) = Ok (N.testbit (os.Mode fi) k).
Proof.
  intros Hs He Hk. rewrite (HavePerm_found s fi _ Hs He).
  rewrite land_pow2_eqb, Perm_testbit.
  apply N.ltb_lt in Hk. now rewrite Hk, andb_true_r.
Qed.

(** ** The owner and group accessors *)

Lemma GetUID_found (s : SystemPath) (fi : os.FileInfo) :
  stat s = Some fi -> GetUID s = Ok (syscall.Uid (os.Sys fi), None).
Proof. intros H. unfold GetUID. rewrite H. cbn. now rewrite uint32_guard. Qed.

Lemma GetGID_found (s : SystemPath) (fi : os.FileInfo) :
  stat s = Some fi -> GetGID s = Ok (syscall.Uid (os.Sys fi), None).
Proof. intros H. unfold GetGID. rewrite H. cbn. now rewrite uint32_guard. Qed.

Lemma GetUID_nil_stat (s : SystemPath) : stat s = None -> GetUID s = Panic.
Proof. intros H. unfold GetUID. now rewrite H. Qed.

Lemma GetGID_nil_stat (s : SystemPath) : stat s = None -> GetGID s = Panic.
Proof. intros H. unfold GetGID. now rewrite H. Qed.

(** ** The resolution performed by the code *)

Ltac resolve_found Hs He :=
  rewrite (GetUID_found _ _ Hs), (GetGID_found _ _ Hs); cbn [bind];
  unfold code_resolve, fsutil.GetUID, fsutil.GetGID, fsutil.InitUser;
  cbn [fsutil.uid fsutil.gid];
  repeat match goal with
         | |- context [if ?b then _ else _] => destruct b
         end;
  first [ apply (HavePerm_found _ _ _ Hs He) ].

Lemma IsReadable_found (h : Host) (s : SystemPath) (fi : os.FileInfo) :
  stat s = Some fi -> err s = None ->
  IsReadable h s = Ok (code_resolve h fi IRUSR IRGRP IROTH).
Proof.
  intros Hs He. unfold IsReadable, IsOwnerReadable, IsGroupReadable,
    IsOtherReadable. resolve_found Hs He.
Qed.

Lemma IsWriteable_found (h : Host) (s : SystemPath) (fi : os.FileInfo) :
  stat s = Some fi -> err s = None ->
  IsWriteable h s = Ok (code_resolve h fi IWUSR IWGRP IWOTH).
Proof.
  intros Hs He. unfold IsWriteable, IsOwnerWriteable, IsGroupWriteable,
    IsOtherWriteable. resolve_found Hs He.
Qed.

Lemma IsExecutible_found (h : Host) (s : SystemPath) (fi : os.FileInfo) :
  stat s = Some fi -> err s = None ->
  IsExecutible h s = Ok (code_resolve h fi IXUSR IXGRP IXOTH).
Proof.
  intros Hs He. unfold IsExecutible, IsOwnerExecutable, IsGroupExecutable,
    IsOtherExecutable. resolve_found Hs He.
Qed.

(** Where the path's owner id and group id are the same number the code's
    resolution and the specified one coincide. *)
Lemma code_resolve_agrees (h : Host) (fi : os.FileInfo)
    (owner group other : os.FileMode) :
  syscall.Uid (os.Sys fi) = syscall.Gid (os.Sys fi) ->
  code_resolve h fi owner group other = spec_resolve h fi owner group other.
Proof. intros H. unfold code_resolve, spec_resolve. now rewrite H. Qed.

(** So on a file whose owner id and group id coincide [IsReadable] answers
    as specified, and likewise whenever the owner test already succeeds. *)
Lemma IsReadable_as_specified (h : Host) (s : SystemPath) (fi : os.FileInfo) :
  stat s = Some fi -> err s = None ->
  syscall.Uid (os.Sys fi) = syscall.Gid (os.Sys fi) \/
  syscall.Uid (os.Sys fi) = uint32 (syscall_Getuid h) ->
  IsReadable h s = Ok (spec_resolve h fi IRUSR IRGRP IROTH).
Proof.
  intros Hs He [Hsame | Howner]; rewrite (IsReadable_found h s fi Hs He); f_equal.
  - now apply code_resolve_agrees.
  - unfold code_resolve, spec_resolve.
    apply N.eqb_eq in Howner. now rewrite Howner.
Qed.

(** The three methods read the host only through the real user and group
    id. *)
Lemma resolution_reads_real_ids (h1 h2 : Host) (s : SystemPath) :
  syscall_Getuid h1 = syscall_Getuid h2 ->
  syscall_Getgid h1 = syscall_Getgid h2 ->
  IsReadable h1 s = IsReadable h2 s /\
  IsWriteable h1 s = IsWriteable h2 s /\
  IsExecutible h1 s = IsExecutible h2 s.
Proof.
  intros Hu Hg.
  unfold IsReadable, IsWriteable, IsExecutible, fsutil.GetUID, fsutil.GetGID,
    fsutil.InitUser. cbn [fsutil.uid fsutil.gid].
  now rewrite Hu, Hg.
Qed.

(** ** Strings *)

Lemma last_char_app (s : string) (c : ascii) :
  last_char (s ++ String c "") = Some c.
Proof.
  induction s as [| a s IH]; [reflexivity |].
  cbn [append last_char]. rewrite IH.
  destruct (s ++ String c "")%string eqn:E; [| reflexivity].
  destruct s; discriminate.
Qed.

Lemma IsNotExist_iff (e : error) :
  os.IsNotExist (Some e) = true <-> not_found e.
Proof.
  unfold os.IsNotExist, not_found.
  destruct (os.underlyingError e) as [n | | | | ? ? ? | ? ? ? ? | ? ? | ?];
    split; intros H; try discriminate; try (destruct H; discriminate).
  - right. apply N.eqb_eq in H. now subst n.
  - destruct H as [H | H]; [discriminate |].
    injection H as ->. apply N.eqb_refl.
  - now left.
  - reflexivity.
Qed.

(** * The claims *)

(** ** Effective-permission resolution *)

(** C1. The claim has the group test compare the path's group id with the
    process's real group id. On a file of user 1000 and group 2000 with mode
    0770, queried by a process of user 500 whose real group is 2000, the
    specified resolution answers through the group class (true for read,
    write and execute), while [IsReadable], [IsWriteable] and [IsExecutible]
    answer through the other class (false): the value they compare is the
    one [GetGID] returns, which is the owner id. *)
Theorem resolution_skips_group_class :
  let h := Sample.member in
  let s := SystemInit h "/srv/report.txt" in
  stat s = Some Sample.report /\
  spec_resolve h Sample.report IRUSR IRGRP IROTH = true /\
  spec_resolve h Sample.report IWUSR IWGRP IWOTH = true /\
  spec_resolve h Sample.report IXUSR IXGRP IXOTH = true /\
  IsReadable h s = Ok false /\
  IsWriteable h s = Ok false /\
  IsExecutible h s = Ok false.
Proof. cbv zeta. repeat split; vm_compute; reflexivity. Qed.

(** ** Owner and group accessors *)

(** C2. On a successfully constructed snapshot of a file owned by user 1000
    and group 2000, [GetUID] returns 1000 and [GetGID] returns 1000 as well,
    not the group id 2000. *)
Theorem GetGID_returns_owner_id :
  let s := SystemInit Sample.member "/srv/report.txt" in
  HaveError s = false /\
  syscall.Uid (os.Sys Sample.report) = 1000 /\
  syscall.Gid (os.Sys Sample.report) = 2000 /\
  GetUID s = Ok (1000, None) /\
  GetGID s = Ok (1000, None).
Proof. cbv zeta. repeat split; vm_compute; reflexivity. Qed.

(** C3. On a snapshot whose construction failed (the path does not exist)
    neither [GetUID] nor [GetGID] returns an error value: both panic on the
    nil status data. *)
Theorem accessors_panic_on_failed_snapshot :
  let s := SystemInit Sample.member "/srv/missing" in
  HaveError s = true /\
  stat s = None /\
  GetUID s = Panic /\
  GetGID s = Panic.
Proof. cbv zeta. repeat split; vm_compute; reflexivity. Qed.

(** C10. With status data present, [GetUID] and [GetGID] return a nil
    error: the guard on the unsigned id always holds, and no call of either
    returns a non-nil error. *)
Theorem accessors_nil_error (s : SystemPath) (fi : os.FileInfo) :
  stat s = Some fi ->
  (exists uid, GetUID s = Ok (uid, None)) /\
  (exists gid, GetGID s = Ok (gid, None)) /\
  (forall id e, GetUID s <> Ok (id, Some e)) /\
  (forall id e, GetGID s <> Ok (id, Some e)).
Proof.
  intros Hs. rewrite (GetUID_found s fi Hs), (GetGID_found s fi Hs).
  repeat split; try (eexists; reflexivity); intros id e H; discriminate.
Qed.

Lemma accessors_nil_error_witness :
  let s := SystemInit Sample.root "/etc/shadow" in
  stat s = Some Sample.shadow /\
  (exists uid, GetUID s = Ok (uid, None)) /\
  (exists gid, GetGID s = Ok (gid, None)) /\
  (forall id e, GetUID s <> Ok (id, Some e)) /\
  (forall id e, GetGID s <> Ok (id, Some e)).
Proof.
  cbv zeta. split; [reflexivity |].
  apply (accessors_nil_error _ Sample.shadow). reflexivity.
Defined.

(** ** Predicates on a failed snapshot *)

(** C4. On a snapshot whose construction failed, each of the thirteen type
    and attribute predicates returns false; none panics. *)
Theorem failed_snapshot_predicates_false (s : SystemPath) :
  HaveError s = true ->
  IsDir s = Ok false /\ IsSymlink s = Ok false /\
  IsRegularFile s = Ok false /\ IsDevice s = Ok false /\
  IsNamedPipe s = Ok false /\ IsSocket s = Ok false /\
  IsCharDevice s = Ok false /\ IsAppend s = Ok false /\
  IsExclusive s = Ok false /\ IsTemporary s = Ok false /\
  HasSetUID s = Ok false /\ HasSetGid s = Ok false /\
  IsSticky s = Ok false.
Proof.
  intros H. destruct (HaveError_true s H) as [e He].
  repeat split;
    first [ apply (IsRegularFile_failed s e He) | apply (IsStat_failed s e _ He) ].
Qed.

Lemma failed_snapshot_predicates_false_witness :
  let s := SystemInit Sample.member "/root/secret" in
  HaveError s = true /\
  (IsDir s = Ok false /\ IsSymlink s = Ok false /\
   IsRegularFile s = Ok false /\ IsDevice s = Ok false /\
   IsNamedPipe s = Ok false /\ IsSocket s = Ok false /\
   IsCharDevice s = Ok false /\ IsAppend s = Ok false /\
   IsExclusive s = Ok false /\ IsTemporary s = Ok false /\
   HasSetUID s = Ok false /\ HasSetGid s = Ok false /\
   IsSticky s = Ok false).
Proof.
  cbv zeta. split; [reflexivity |].
  apply failed_snapshot_predicates_false. reflexivity.
Defined.

(** ** Existence *)

(** C5. [IsExist] is false exactly when the captured error indicates that
    the path was not found; it is true on a snapshot without error and on
    every other error. *)
Theorem IsExist_false_iff_not_found (s : SystemPath) :
  (IsExist s = false <-> exists e, err s = Some e /\ not_found e) /\
  (err s = None -> IsExist s = true) /\
  (forall e, err s = Some e -> ~ not_found e -> IsExist s = true).
Proof.
  unfold IsExist. repeat split.
  - intros H. destruct (err s) as [e |]; [| discriminate].
    exists e. split; [reflexivity |]. apply IsNotExist_iff.
    destruct (os.IsNotExist (Some e)); [reflexivity | discriminate].
  - intros [e [He Hnf]]. rewrite He.
    apply IsNotExist_iff in Hnf. now rewrite Hnf.
  - intros He. now rewrite He.
  - intros e He Hnf. rewrite He.
    destruct (os.IsNotExist (Some e)) eqn:E; [| reflexivity].
    apply IsNotExist_iff in E. contradiction.
Qed.

Lemma IsExist_false_iff_not_found_witness :
  let s := SystemInit Sample.member "/srv/missing" in
  (exists e, err s = Some e /\ not_found e) /\ IsExist s = false.
Proof.
  cbv zeta.
  assert (H : exists e, err (SystemInit Sample.member "/srv/missing") = Some e /\
                        not_found e)
    by (eexists; split; [reflexivity | right; reflexivity]).
  split; [exact H |].
  apply (proj2 (proj1 (IsExist_false_iff_not_found _)) H).
Defined.

(** Through [SystemInit]: the path is reported absent exactly when
    [stat(2)] failed with [ENOENT]. *)
Lemma IsExist_SystemInit (h : Host) (path : string) :
  IsExist (SystemInit h path) = false <-> files h path = inr syscall.ENOENT.
Proof.
  unfold IsExist, SystemInit, os_Stat.
  destruct (files h path) as [fi | e]; cbn.
  - split; discriminate.
  - destruct (N.eqb_spec e syscall.ENOENT) as [-> | Hne]; cbn.
    + split; reflexivity.
    + split; [discriminate | intros H; injection H as ->; contradiction].
Qed.

Example IsExist_permission_denied :
  HaveError (SystemInit Sample.member "/root/secret") = true /\
  IsExist (SystemInit Sample.member "/root/secret") = true.
Proof. split; reflexivity. Qed.

(** ** Permission bits *)

(** C6. On a successfully constructed snapshot, [HavePerm] returns true
    exactly when every bit of the requested mask is a set bit of the
    permission portion (the nine owner, group and other bits) of the mode,
    whatever the identity of the process; one requested bit that is not
    makes it return false. *)
Theorem HavePerm_iff_all_bits
    (s : SystemPath) (fi : os.FileInfo) (perm : os.FileMode) :
  stat s = Some fi -> err s = None ->
  (HavePerm s perm = Ok true <->
   forall i, N.testbit perm i = true -> perm_bit_set (os.Mode fi) i) /\
  ((exists i, N.testbit perm i = true /\ ~ perm_bit_set (os.Mode fi) i) ->
   HavePerm s perm = Ok false).
Proof.
  intros Hs He. rewrite (HavePerm_found s fi perm Hs He).
  assert (Hsub : N.land (os.Perm (os.Mode fi)) perm = perm <->
                 forall i, N.testbit perm i = true ->
                           perm_bit_set (os.Mode fi) i).
  { rewrite land_eq_iff_subset. unfold perm_bit_set.
    split; intros H i Hi; specialize (H i Hi);
      rewrite Perm_testbit in *.
    - apply andb_true_iff in H. destruct H as [Hm Hlt].
      now apply N.ltb_lt in Hlt.
    - destruct H as [Hlt Hm]. apply N.ltb_lt in Hlt. now rewrite Hm, Hlt. }
  split.
  - rewrite <- Hsub, <- N.eqb_eq. split; [now intros [= ->] | now intros ->].
  - intros [i [Hi Hno]]. f_equal. apply N.eqb_neq. intros Heq.
    apply Hno. now apply Hsub.
Qed.

Lemma HavePerm_iff_all_bits_witness :
  let s := SystemInit Sample.member "/srv/report.txt" in
  let perm := N.lor IRUSR IWGRP in
  stat s = Some Sample.report /\ err s = None /\
  (HavePerm s perm = Ok true <->
   forall i, N.testbit perm i = true -> perm_bit_set (os.Mode Sample.report) i) /\
  ((exists i, N.testbit perm i = true /\
              ~ perm_bit_set (os.Mode Sample.report) i) ->
   HavePerm s perm = Ok false).
Proof.
  cbv zeta. split; [reflexivity |]. split; [reflexivity |].
  apply (HavePerm_iff_all_bits _ Sample.report); reflexivity.
Defined.

Example HavePerm_one_missing_bit :
  let s := SystemInit Sample.member "/srv/report.txt" in
  HavePerm s (N.lor IRUSR IWGRP) = Ok true /\
  HavePerm s (N.lor IRUSR IWOTH) = Ok false /\
  HavePerm s (N.lor IRUSR os.ModeDir) = Ok false.
Proof. cbv zeta. repeat split; vm_compute; reflexivity. Qed.

(** C7. The nine class/access constants have the POSIX values 0400, 0200,
    0100, 0040, 0020, 0010, 0004, 0002, 0001 (256, 128, 64, 32, 16, 8, 4, 2,
    1), and on a successfully constructed snapshot each of the nine
    predicates returns the value of the one mode bit of its constant. *)
Theorem class_access_predicates_single_bit
    (s : SystemPath) (fi : os.FileInfo) :
  stat s = Some fi -> err s = None ->
  (IRUSR = 256 /\ IsOwnerReadable s = Ok (N.testbit (os.Mode fi) 8)) /\
  (IWUSR = 128 /\ IsOwnerWriteable s = Ok (N.testbit (os.Mode fi) 7)) /\
  (IXUSR = 64 /\ IsOwnerExecutable s = Ok (N.testbit (os.Mode fi) 6)) /\
  (IRGRP = 32 /\ IsGroupReadable s = Ok (N.testbit (os.Mode fi) 5)) /\
  (IWGRP = 16 /\ IsGroupWriteable s = Ok (N.testbit (os.Mode fi) 4)) /\
  (IXGRP = 8 /\ IsGroupExecutable s = Ok (N.testbit (os.Mode fi) 3)) /\
  (IROTH = 4 /\ IsOtherReadable s = Ok (N.testbit (os.Mode fi) 2)) /\
  (IWOTH = 2 /\ IsOtherWriteable s = Ok (N.testbit (os.Mode fi) 1)) /\
  (IXOTH = 1 /\ IsOtherExecutable s = Ok (N.testbit (os.Mode fi) 0)).
Proof.
  intros Hs He.
  repeat split; try reflexivity;
    match goal with
    | |- _ = Ok (N.testbit _ ?k) =>
        apply (HavePerm_single_bit s fi k Hs He); reflexivity
    end.
Qed.

Lemma class_access_predicates_single_bit_witness :
  let s := SystemInit Sample.root "/etc/shadow" in
  let m := os.Mode Sample.shadow in
  stat s = Some Sample.shadow /\ err s = None /\
  (IRUSR = 256 /\ IsOwnerReadable s = Ok (N.testbit m 8)) /\
  (IWUSR = 128 /\ IsOwnerWriteable s = Ok (N.testbit m 7)) /\
  (IXUSR = 64 /\ IsOwnerExecutable s = Ok (N.testbit m 6)) /\
  (IRGRP = 32 /\ IsGroupReadable s = Ok (N.testbit m 5)) /\
  (IWGRP = 16 /\ IsGroupWriteable s = Ok (N.testbit m 4)) /\
  (IXGRP = 8 /\ IsGroupExecutable s = Ok (N.testbit m 3)) /\
  (IROTH = 4 /\ IsOtherReadable s = Ok (N.testbit m 2)) /\
  (IWOTH = 2 /\ IsOtherWriteable s = Ok (N.testbit m 1)) /\
  (IXOTH = 1 /\ IsOtherExecutable s = Ok (N.testbit m 0)).
Proof.
  cbv zeta. split; [reflexivity |]. split; [reflexivity |].
  apply (class_access_predicates_single_bit _ Sample.shadow); reflexivity.
Defined.

(** ** Working directory *)

(** C8, as stated, fails: for the non-root working directory [/srv],
    looked up as ["/srv/"], the result without the trailing separator
    requested ends with the separator. *)
Lemma GetCurrentDir_nonroot_ends_with_separator :
  cwd Sample.slashed = inl "/srv/" /\
  "/srv/" <> String os.PathSeparator "" /\
  ends_with_separator (GetCurrentDir Sample.slashed false) = true.
Proof. repeat split. discriminate. Qed.

(** C8, amended. [GetCurrentDir] returns the empty string when the lookup
    fails, whatever the argument; when it succeeds, the result with the
    trailing separator requested ends with the path separator, and the
    result without it is the looked-up directory unchanged, with whatever
    last character the lookup gave it. *)
Theorem GetCurrentDir_spec (h : Host) :
  (forall e b, cwd h = inr e -> GetCurrentDir h b = "") /\
  (forall dir, cwd h = inl dir ->
     ends_with_separator (GetCurrentDir h true) = true /\
     GetCurrentDir h false = dir).
Proof.
  unfold GetCurrentDir, os_Getwd. split.
  - intros e b H. now rewrite H.
  - intros dir H. rewrite H. split; [| reflexivity].
    unfold ends_with_separator. rewrite last_char_app.
    apply Ascii.eqb_refl.
Qed.

Lemma GetCurrentDir_spec_witness :
  cwd Sample.lost = inr syscall.ENOENT /\
  GetCurrentDir Sample.lost true = "" /\
  GetCurrentDir Sample.lost false = "" /\
  cwd Sample.slashed = inl "/srv/" /\
  ends_with_separator (GetCurrentDir Sample.slashed true) = true /\
  GetCurrentDir Sample.slashed false = "/srv/".
Proof.
  destruct (GetCurrentDir_spec Sample.lost) as [Hfail _].
  destruct (GetCurrentDir_spec Sample.slashed) as [_ Hok].
  destruct (Hok "/srv/" eq_refl) as [Htrue Hsame].
  split; [reflexivity |].
  split; [apply (Hfail syscall.ENOENT true); reflexivity |].
  split; [apply (Hfail syscall.ENOENT false); reflexivity |].
  split; [reflexivity |].
  split; [exact Htrue | exact Hsame].
Defined.

Example GetCurrentDir_samples :
  GetCurrentDir Sample.member true = "/srv/" /\
  GetCurrentDir Sample.member false = "/srv" /\
  GetCurrentDir Sample.root true = "//" /\
  GetCurrentDir Sample.lost true = "" /\
  GetCurrentDir Sample.lost false = "".
Proof. repeat split. Qed.

(** ** Repeated calls *)

(** C9, as stated, fails: the snapshot of a root-owned file of mode 0600,
    taken by a process running as root, is readable when asked before the
    process drops to user 1000 and not readable when asked after. *)
Lemma IsReadable_differs_after_setuid :
  call Sample.root PIsReadable (SystemInit Sample.root "/etc/shadow") <>
  call Sample.dropped PIsReadable (SystemInit Sample.root "/etc/shadow").
Proof. vm_compute. discriminate. Qed.

(** C9, amended. Two calls of a predicate on the same snapshot return the
    same result whenever the predicate does not call [InitUser], or the
    real user id and real group id of the process are the same at both
    calls; the state of the file tree at the time of the call plays no
    part. *)
Theorem predicates_repeatable
    (p : Predicate) (s : SystemPath) (h1 h2 : Host) :
  calls_InitUser p = false \/
  (syscall_Getuid h1 = syscall_Getuid h2 /\
   syscall_Getgid h1 = syscall_Getgid h2) ->
  call h1 p s = call h2 p s.
Proof.
  intros [Hp | [Hu Hg]].
  - destruct p; try reflexivity; discriminate.
  - destruct (resolution_reads_real_ids h1 h2 s Hu Hg) as [Hr [Hw Hx]].
    destruct p; cbn [call]; auto.
Qed.

Lemma predicates_repeatable_witness :
  let s := SystemInit Sample.member "/srv/report.txt" in
  (calls_InitUser PIsReadable = false \/
   (syscall_Getuid Sample.member = syscall_Getuid Sample.emptied /\
    syscall_Getgid Sample.member = syscall_Getgid Sample.emptied)) /\
  call Sample.member PIsReadable s = call Sample.emptied PIsReadable s.
Proof.
  cbv zeta.
  assert (H : calls_InitUser PIsReadable = false \/
              (syscall_Getuid Sample.member = syscall_Getuid Sample.emptied /\
               syscall_Getgid Sample.member = syscall_Getgid Sample.emptied))
    by (right; split; reflexivity).
  split; [exact H |].
  apply (predicates_repeatable PIsReadable _ Sample.member Sample.emptied H).
Defined.

(** * Further properties of the code *)

(** ** More on bits and conversions *)

Lemma land_lor_eqb (x a b : N) :
  (N.land x (N.lor a b) =? N.lor a b) =
  (N.land x a =? a) && (N.land x b =? b).
Proof.
  apply Bool.eq_iff_eq_true.
  rewrite andb_true_iff, !N.eqb_eq, !land_eq_iff_subset. split.
  - intros H. split; intros i Hi; apply H; rewrite N.lor_spec, Hi;
      [reflexivity | apply orb_true_r].
  - intros [Ha Hb] i Hi. rewrite N.lor_spec in Hi.
    apply orb_true_iff in Hi. destruct Hi; auto.
Qed.

Lemma land_pow2_zero (a k : N) :
  N.land a (2 ^ k) = 0 <-> N.testbit a k = false.
Proof.
  split.
  - intros H.
    assert (Hk : N.testbit (N.land a (2 ^ k)) k = N.testbit a k)
      by (rewrite N.land_spec, N.pow2_bits_true; apply andb_true_r).
    rewrite <- Hk, H. apply N.bits_0.
  - intros H. apply N.bits_inj. intro i.
    rewrite N.land_spec, N.pow2_bits_eqb, N.bits_0.
    destruct (N.eqb_spec k i) as [<- | Hne].
    + now rewrite H.
    + apply andb_false_r.
Qed.

(** On an id a process can have, [uint32] loses nothing: the comparison
    with a file id is the comparison of the two integers. *)
Lemma uint32_eqb (n : N) (x : Z) :
  (0 <= x < 2 ^ 32)%Z -> (n =? uint32 x) = (Z.of_N n =? x)%Z.
Proof.
  intros Hx. unfold uint32. rewrite Z.mod_small by exact Hx.
  destruct (N.eqb_spec n (Z.to_N x)) as [Heq | Hne];
    destruct (Z.eqb_spec (Z.of_N n) x) as [Heq' | Hne']; try reflexivity.
  - exfalso. apply Hne'. rewrite Heq. apply Z2N.id. lia.
  - exfalso. apply Hne. rewrite <- Heq'. symmetry. apply N2Z.id.
Qed.

Lemma IsStat_found (s : SystemPath) (fi : os.FileInfo) (istat : os.FileMode) :
  stat s = Some fi -> err s = None ->
  IsStat s istat = Ok (N.land (os.Mode fi) istat =? istat).
Proof. intros Hs He. unfold IsStat. now rewrite He, Hs. Qed.

Lemma IsStat_single_bit (s : SystemPath) (fi : os.FileInfo) (k : N) :
  stat s = Some fi -> err s = None ->
  IsStat s (2 ^ k) = Ok (N.testbit (os.Mode fi) k).
Proof.
  intros Hs He. rewrite (IsStat_found s fi _ Hs He). now rewrite land_pow2_eqb.
Qed.

Lemma IsRegularFile_found (s : SystemPath) (fi : os.FileInfo) :
  stat s = Some fi -> err s = None ->
  IsRegularFile s = Ok (os.IsRegular (os.Mode fi)).
Proof. intros Hs He. unfold IsRegularFile. now rewrite He, Hs. Qed.

Lemma drop_last_app (s : string) (c : ascii) :
  drop_last (s ++ String c "") = s.
Proof.
  induction s as [| a s IH]; [reflexivity |].
  cbn [append drop_last]. rewrite IH.
  destruct (s ++ String c "")%string eqn:E; [| reflexivity].
  destruct s; discriminate.
Qed.

Lemma append_assoc (a b c : string) :
  ((a ++ b) ++ c = a ++ (b ++ c))%string.
Proof.
  induction a as [| x a IH]; [reflexivity |].
  cbn [append]. now rewrite IH.
Qed.

Lemma last_char_split (s : string) (c : ascii) :
  last_char s = Some c -> exists stem, s = (stem ++ String c "")%string.
Proof.
  induction s as [| a s IH]; [discriminate |].
  destruct s as [| b s].
  - intros [= ->]. now exists "".
  - intros H. destruct (IH H) as [stem Hstem].
    exists (String a stem). cbn [append]. now rewrite <- Hstem.
Qed.

Lemma ends_with_separator_split (s : string) :
  ends_with_separator s = true ->
  exists stem, s = (stem ++ String os.PathSeparator "")%string.
Proof.
  unfold ends_with_separator.
  destruct (last_char s) as [c |] eqn:E; [| discriminate].
  intros Hc. apply Ascii.eqb_eq in Hc. subst c.
  now apply last_char_split.
Qed.

(** ** Construction *)

(** X1. A snapshot built by [SystemInit] holds either status data or an
    error, never both and never neither: [HaveError] is true exactly when
    the status data is nil, and [Error] is nil exactly when status data is
    present. *)
Theorem SystemInit_stat_xor_err (h : Host) (path : string) :
  (HaveError (SystemInit h path) = true <-> stat (SystemInit h path) = None) /\
  (Error (SystemInit h path) = None <->
   exists fi, stat (SystemInit h path) = Some fi).
Proof.
  unfold HaveError, Error.
  destruct (SystemInit_shape h path) as [[fi [Hs He]] | [e [Hs He]]];
    rewrite Hs, He; split; split; intros H; try discriminate;
    try reflexivity.
  - now exists fi.
  - destruct H as [fi' H]. discriminate.
Qed.

(** X2. The three outcomes of construction: a path that was found gives no
    error and exists; one that [stat] reports missing gives an error and
    does not exist; any other failure gives an error and still counts as
    existing. *)
Theorem SystemInit_three_outcomes (h : Host) (path : string) :
  (forall fi, files h path = inl fi ->
     HaveError (SystemInit h path) = false /\
     IsExist (SystemInit h path) = true) /\
  (files h path = inr syscall.ENOENT ->
     HaveError (SystemInit h path) = true /\
     IsExist (SystemInit h path) = false) /\
  (forall e, files h path = inr e -> e <> syscall.ENOENT ->
     HaveError (SystemInit h path) = true /\
     IsExist (SystemInit h path) = true).
Proof.
  split; [| split].
  - intros fi E. now rewrite (SystemInit_found _ _ _ E).
  - intros E. now rewrite (SystemInit_failed _ _ _ E).
  - intros e E Hne. rewrite (SystemInit_failed _ _ _ E). split; [reflexivity |].
    unfold IsExist. cbn. apply N.eqb_neq in Hne. now rewrite Hne.
Qed.

Lemma SystemInit_three_outcomes_witness :
  files Sample.member "/root/secret" = inr syscall.EACCES /\
  syscall.EACCES <> syscall.ENOENT /\
  HaveError (SystemInit Sample.member "/root/secret") = true /\
  IsExist (SystemInit Sample.member "/root/secret") = true.
Proof.
  assert (Hne : syscall.EACCES <> syscall.ENOENT) by discriminate.
  split; [reflexivity |]. split; [exact Hne |].
  apply (proj2 (proj2 (SystemInit_three_outcomes Sample.member "/root/secret"))
           syscall.EACCES eq_refl Hne).
Defined.

(** X3. On a snapshot built by [SystemInit], no predicate that does not
    call [InitUser] panics: whether the construction succeeded or failed,
    each returns a boolean. *)
Theorem guarded_predicates_return
    (h0 h : Host) (path : string) (p : Predicate) :
  calls_InitUser p = false ->
  exists b, call h0 p (SystemInit h path) = Ok b.
Proof.
  intros Hp.
  destruct (files h path) as [fi | e] eqn:E;
    [rewrite (SystemInit_found _ _ _ E) | rewrite (SystemInit_failed _ _ _ E)];
    destruct p; try discriminate Hp; eexists; reflexivity.
Qed.

Lemma guarded_predicates_return_witness :
  calls_InitUser (PHavePerm IRUSR) = false /\
  exists b, call Sample.root (PHavePerm IRUSR)
              (SystemInit Sample.member "/srv/missing") = Ok b.
Proof.
  split; [reflexivity |].
  apply (guarded_predicates_return Sample.root Sample.member). reflexivity.
Defined.

(** The zero value of the struct is not such a snapshot: with neither
    status data nor error the guard passes and the call panics. *)
Example zero_value_panics :
  IsStat {| stat := None; err := None |} os.ModeDir = Panic /\
  HavePerm {| stat := None; err := None |} IRUSR = Panic /\
  IsRegularFile {| stat := None; err := None |} = Panic.
Proof. repeat split. Qed.

(** ** What is not guarded *)

(** X4. [Size] passes the size of the status data through, and on a
    snapshot built by [SystemInit] it panics exactly when the construction
    failed. *)
Theorem Size_passes_through_or_panics (h : Host) (path : string) :
  (forall fi, files h path = inl fi ->
     Size (SystemInit h path) = Ok (os.Size fi)) /\
  (Size (SystemInit h path) = Panic <->
   HaveError (SystemInit h path) = true).
Proof.
  split.
  - intros fi E. now rewrite (SystemInit_found _ _ _ E).
  - destruct (files h path) as [fi | e] eqn:E.
    + rewrite (SystemInit_found _ _ _ E). split; discriminate.
    + rewrite (SystemInit_failed _ _ _ E). split; reflexivity.
Qed.

(** X5. On a snapshot built by [SystemInit], each of [IsReadable],
    [IsWriteable] and [IsExecutible] panics exactly when the construction
    failed, whatever the identity of the process; after a successful
    construction each returns a boolean. *)
Theorem resolution_panics_iff_failed (h0 h : Host) (path : string) :
  let s := SystemInit h path in
  (HaveError s = true ->
   IsReadable h0 s = Panic /\ IsWriteable h0 s = Panic /\
   IsExecutible h0 s = Panic) /\
  (HaveError s = false ->
   exists r w x, IsReadable h0 s = Ok r /\ IsWriteable h0 s = Ok w /\
                 IsExecutible h0 s = Ok x).
Proof.
  cbv zeta. destruct (files h path) as [fi | e] eqn:E.
  - pose proof (SystemInit_found _ _ _ E) as Hinit. rewrite Hinit.
    split; [discriminate |]. intros _.
    exists (code_resolve h0 fi IRUSR IRGRP IROTH),
           (code_resolve h0 fi IWUSR IWGRP IWOTH),
           (code_resolve h0 fi IXUSR IXGRP IXOTH).
    repeat split;
      [apply IsReadable_found | apply IsWriteable_found
       | apply IsExecutible_found]; reflexivity.
  - rewrite (SystemInit_failed _ _ _ E).
    split; [intros _; repeat split | discriminate].
Qed.

Lemma resolution_panics_iff_failed_witness :
  let s := SystemInit Sample.member "/srv/missing" in
  HaveError s = true /\
  IsReadable Sample.root s = Panic /\ IsWriteable Sample.root s = Panic /\
  IsExecutible Sample.root s = Panic.
Proof.
  cbv zeta. split; [reflexivity |].
  apply (proj1 (resolution_panics_iff_failed Sample.root Sample.member
                  "/srv/missing")).
  reflexivity.
Defined.

(** ** The resolution as coded *)

(** X6. On a successful snapshot and for real ids in the 32-bit range, the
    three queries answer from the owner class when the path's owner id is
    the process's real user id; otherwise from the group class when the
    path's owner id (not its group id) is the process's real group id;
    otherwise from the other class. *)
Theorem resolution_as_coded (h : Host) (s : SystemPath) (fi : os.FileInfo) :
  stat s = Some fi -> err s = None ->
  (0 <= syscall_Getuid h < 2 ^ 32)%Z ->
  (0 <= syscall_Getgid h < 2 ^ 32)%Z ->
  let owner := Z.of_N (syscall.Uid (os.Sys fi)) in
  (owner = syscall_Getuid h ->
   IsReadable h s = IsOwnerReadable s /\
   IsWriteable h s = IsOwnerWriteable s /\
   IsExecutible h s = IsOwnerExecutable s) /\
  (owner <> syscall_Getuid h -> owner = syscall_Getgid h ->
   IsReadable h s = IsGroupReadable s /\
   IsWriteable h s = IsGroupWriteable s /\
   IsExecutible h s = IsGroupExecutable s) /\
  (owner <> syscall_Getuid h -> owner <> syscall_Getgid h ->
   IsReadable h s = IsOtherReadable s /\
   IsWriteable h s = IsOtherWriteable s /\
   IsExecutible h s = IsOtherExecutable s).
Proof.
  intros Hs He Hu Hg owner.
  rewrite (IsReadable_found h s fi Hs He), (IsWriteable_found h s fi Hs He),
    (IsExecutible_found h s fi Hs He).
  unfold IsOwnerReadable, IsOwnerWriteable, IsOwnerExecutable,
    IsGroupReadable, IsGroupWriteable, IsGroupExecutable,
    IsOtherReadable, IsOtherWriteable, IsOtherExecutable.
  rewrite !(HavePerm_found s fi _ Hs He).
  unfold code_resolve. rewrite (uint32_eqb _ _ Hu), (uint32_eqb _ _ Hg).
  fold owner.
  split; [| split].
  - intros Ho. apply Z.eqb_eq in Ho. rewrite Ho. repeat split.
  - intros Ho Hgr. apply Z.eqb_neq in Ho. apply Z.eqb_eq in Hgr.
    rewrite Ho, Hgr. repeat split.
  - intros Ho Hgr. apply Z.eqb_neq in Ho. apply Z.eqb_neq in Hgr.
    rewrite Ho, Hgr. repeat split.
Qed.

Lemma resolution_as_coded_witness :
  let h := Sample.member in
  let s := SystemInit h "/srv/report.txt" in
  stat s = Some Sample.report /\ err s = None /\
  (0 <= syscall_Getuid h < 2 ^ 32)%Z /\
  (0 <= syscall_Getgid h < 2 ^ 32)%Z /\
  Z.of_N (syscall.Uid (os.Sys Sample.report)) <> syscall_Getuid h /\
  Z.of_N (syscall.Uid (os.Sys Sample.report)) <> syscall_Getgid h /\
  IsReadable h s = IsOtherReadable s /\
  IsWriteable h s = IsOtherWriteable s /\
  IsExecutible h s = IsOtherExecutable s.
Proof.
  cbv zeta.
  assert (Hu : (0 <= syscall_Getuid Sample.member < 2 ^ 32)%Z)
    by (cbn; lia).
  assert (Hg : (0 <= syscall_Getgid Sample.member < 2 ^ 32)%Z)
    by (cbn; lia).
  assert (Ho : Z.of_N (syscall.Uid (os.Sys Sample.report)) <>
               syscall_Getuid Sample.member) by discriminate.
  assert (Hgr : Z.of_N (syscall.Uid (os.Sys Sample.report)) <>
                syscall_Getgid Sample.member) by discriminate.
  split; [reflexivity |]. split; [reflexivity |].
  split; [exact Hu |]. split; [exact Hg |].
  split; [exact Ho |]. split; [exact Hgr |].
  apply (proj2 (proj2 (resolution_as_coded Sample.member
                         (SystemInit Sample.member "/srv/report.txt")
                         Sample.report eq_refl eq_refl Hu Hg)) Ho Hgr).
Defined.

(** X7. The resolution has no bypass: on a successful snapshot whose nine
    permission bits are all clear the three queries return false for every
    process, root included; and with all nine set they return true for
    every process. *)
Theorem resolution_without_bypass (s : SystemPath) (fi : os.FileInfo) :
  stat s = Some fi -> err s = None ->
  (os.Perm (os.Mode fi) = 0 ->
   forall h, IsReadable h s = Ok false /\ IsWriteable h s = Ok false /\
             IsExecutible h s = Ok false) /\
  (os.Perm (os.Mode fi) = os.ModePerm ->
   forall h, IsReadable h s = Ok true /\ IsWriteable h s = Ok true /\
             IsExecutible h s = Ok true).
Proof.
  intros Hs He. split; intros Hp h;
    rewrite (IsReadable_found h s fi Hs He), (IsWriteable_found h s fi Hs He),
      (IsExecutible_found h s fi Hs He);
    unfold code_resolve; rewrite Hp;
    repeat match goal with
           | |- context [if ?b then _ else _] => destruct b
           end;
    repeat split; reflexivity.
Qed.

Lemma resolution_without_bypass_witness :
  let s := {| stat := Some Sample.sealed; err := None |} in
  stat s = Some Sample.sealed /\ err s = None /\
  os.Perm (os.Mode Sample.sealed) = 0 /\
  IsReadable Sample.root s = Ok false /\
  IsWriteable Sample.root s = Ok false /\
  IsExecutible Sample.root s = Ok false.
Proof.
  cbv zeta.
  assert (Hp : os.Perm (os.Mode Sample.sealed) = 0) by reflexivity.
  split; [reflexivity |]. split; [reflexivity |]. split; [exact Hp |].
  apply (proj1 (resolution_without_bypass
                  {| stat := Some Sample.sealed; err := None |}
                  Sample.sealed eq_refl eq_refl) Hp).
Defined.

(** ** Masks *)

(** X8. Asking for two masks at once is asking for each: on a snapshot
    built by [SystemInit], [HavePerm] of the union of two masks is the
    conjunction of [HavePerm] of each, and likewise for [IsStat]. *)
Theorem union_mask_is_conjunction (h : Host) (path : string) (a b : os.FileMode) :
  let s := SystemInit h path in
  (exists pa pb, HavePerm s a = Ok pa /\ HavePerm s b = Ok pb /\
                 HavePerm s (N.lor a b) = Ok (pa && pb)) /\
  (exists ta tb, IsStat s a = Ok ta /\ IsStat s b = Ok tb /\
                 IsStat s (N.lor a b) = Ok (ta && tb)).
Proof.
  cbv zeta. destruct (SystemInit_shape h path) as [[fi [Hs He]] | [e [Hs He]]].
  - split; do 2 eexists.
    + rewrite !(HavePerm_found _ fi _ Hs He), land_lor_eqb. repeat split.
    + rewrite !(IsStat_found _ fi _ Hs He), land_lor_eqb. repeat split.
  - split; exists false, false.
    + rewrite !(HavePerm_failed _ e _ He). repeat split.
    + rewrite !(IsStat_failed _ e _ He). repeat split.
Qed.

(** X9. On a successful snapshot [IsStat] returns true exactly when every
    bit of the mask is set in the mode; the empty mask is always satisfied,
    by [IsStat] and by [HavePerm]. *)
Theorem IsStat_iff_all_bits
    (s : SystemPath) (fi : os.FileInfo) (istat : os.FileMode) :
  stat s = Some fi -> err s = None ->
  (IsStat s istat = Ok true <->
   forall i, N.testbit istat i = true -> N.testbit (os.Mode fi) i = true) /\
  IsStat s 0 = Ok true /\
  HavePerm s 0 = Ok true.
Proof.
  intros Hs He.
  rewrite !(IsStat_found s fi _ Hs He), (HavePerm_found s fi _ Hs He).
  rewrite !N.land_0_r. repeat split.
  - intros [= H]. now apply land_eq_iff_subset, N.eqb_eq.
  - intros H. f_equal. now apply N.eqb_eq, land_eq_iff_subset.
Qed.

Lemma IsStat_iff_all_bits_witness :
  let s := SystemInit Sample.member "/srv/report.txt" in
  stat s = Some Sample.report /\ err s = None /\
  (IsStat s IRGRP = Ok true <->
   forall i, N.testbit IRGRP i = true ->
             N.testbit (os.Mode Sample.report) i = true) /\
  IsStat s 0 = Ok true /\
  HavePerm s 0 = Ok true.
Proof.
  cbv zeta. split; [reflexivity |]. split; [reflexivity |].
  apply (IsStat_iff_all_bits (SystemInit Sample.member "/srv/report.txt")
           Sample.report IRGRP eq_refl eq_refl).
Defined.

(** X10. On a successful snapshot, for a mask that lies within the nine
    permission bits [HavePerm] and [IsStat] give the same answer; a mask
    with a bit outside them makes [HavePerm] false whatever the mode. *)
Theorem HavePerm_vs_IsStat
    (s : SystemPath) (fi : os.FileInfo) (perm : os.FileMode) :
  stat s = Some fi -> err s = None ->
  (N.land perm os.ModePerm = perm -> HavePerm s perm = IsStat s perm) /\
  (N.land perm os.ModePerm <> perm -> HavePerm s perm = Ok false).
Proof.
  intros Hs He.
  rewrite (HavePerm_found s fi _ Hs He), (IsStat_found s fi _ Hs He).
  unfold os.Perm. split; intros Hp; f_equal.
  - rewrite <- N.land_assoc, (N.land_comm os.ModePerm perm), Hp. reflexivity.
  - apply N.eqb_neq. intros H. apply Hp.
    rewrite <- H at 1.
    rewrite <- N.land_assoc, (N.land_comm perm os.ModePerm), N.land_assoc.
    rewrite <- (N.land_assoc (os.Mode fi)), N.land_diag. exact H.
Qed.

Lemma HavePerm_vs_IsStat_witness :
  let s := SystemInit Sample.member "/srv/report.txt" in
  stat s = Some Sample.report /\ err s = None /\
  N.land IWGRP os.ModePerm = IWGRP /\
  HavePerm s IWGRP = IsStat s IWGRP.
Proof.
  cbv zeta.
  assert (Hp : N.land IWGRP os.ModePerm = IWGRP) by reflexivity.
  split; [reflexivity |]. split; [reflexivity |]. split; [exact Hp |].
  apply (proj1 (HavePerm_vs_IsStat
                  (SystemInit Sample.member "/srv/report.txt")
                  Sample.report IWGRP eq_refl eq_refl) Hp).
Defined.

(** ** File types *)

(** X11. On a successful snapshot each of the twelve type and attribute
    predicates built on [IsStat] returns the value of one bit of the mode:
    bit 31 for a directory down to bit 20 for sticky. *)
Theorem type_predicates_single_bit (s : SystemPath) (fi : os.FileInfo) :
  stat s = Some fi -> err s = None ->
  let bit := N.testbit (os.Mode fi) in
  IsDir s = Ok (bit 31) /\ IsAppend s = Ok (bit 30) /\
  IsExclusive s = Ok (bit 29) /\ IsTemporary s = Ok (bit 28) /\
  IsSymlink s = Ok (bit 27) /\ IsDevice s = Ok (bit 26) /\
  IsNamedPipe s = Ok (bit 25) /\ IsSocket s = Ok (bit 24) /\
  HasSetUID s = Ok (bit 23) /\ HasSetGid s = Ok (bit 22) /\
  IsCharDevice s = Ok (bit 21) /\ IsSticky s = Ok (bit 20).
Proof.
  intros Hs He bit. subst bit.
  repeat split;
    match goal with
    | |- _ = Ok (N.testbit _ ?k) => apply (IsStat_single_bit s fi k Hs He)
    end.
Qed.

Lemma type_predicates_single_bit_witness :
  let s := {| stat := Some Sample.sealed; err := None |} in
  let bit := N.testbit (os.Mode Sample.sealed) in
  stat s = Some Sample.sealed /\ err s = None /\
  IsDir s = Ok (bit 31) /\ IsAppend s = Ok (bit 30) /\
  IsExclusive s = Ok (bit 29) /\ IsTemporary s = Ok (bit 28) /\
  IsSymlink s = Ok (bit 27) /\ IsDevice s = Ok (bit 26) /\
  IsNamedPipe s = Ok (bit 25) /\ IsSocket s = Ok (bit 24) /\
  HasSetUID s = Ok (bit 23) /\ HasSetGid s = Ok (bit 22) /\
  IsCharDevice s = Ok (bit 21) /\ IsSticky s = Ok (bit 20).
Proof.
  cbv zeta. split; [reflexivity |]. split; [reflexivity |].
  apply (type_predicates_single_bit
           {| stat := Some Sample.sealed; err := None |} Sample.sealed
           eq_refl eq_refl).
Defined.

Lemma type_bits (s : SystemPath) (fi : os.FileInfo) :
  stat s = Some fi -> err s = None ->
  IsDir s = Ok (N.testbit (os.Mode fi) 31) /\
  IsSymlink s = Ok (N.testbit (os.Mode fi) 27) /\
  IsNamedPipe s = Ok (N.testbit (os.Mode fi) 25) /\
  IsSocket s = Ok (N.testbit (os.Mode fi) 24) /\
  IsDevice s = Ok (N.testbit (os.Mode fi) 26) /\
  IsCharDevice s = Ok (N.testbit (os.Mode fi) 21).
Proof.
  intros Hs He.
  repeat split;
    match goal with
    | |- _ = Ok (N.testbit _ ?k) => apply (IsStat_single_bit s fi k Hs He)
    end.
Qed.

Lemma ModeType_bits :
  os.ModeType =
  N.lor (2 ^ 31) (N.lor (2 ^ 27) (N.lor (2 ^ 25)
    (N.lor (2 ^ 24) (N.lor (2 ^ 26) (N.lor (2 ^ 21) (2 ^ 19)))))).
Proof. reflexivity. Qed.

Lemma Ok_false_iff (b : bool) : @Ok bool b = Ok false <-> b = false.
Proof. split; [now intros [= ->] | now intros ->]. Qed.

Lemma Ok_true_iff (b : bool) : @Ok bool b = Ok true <-> b = true.
Proof. split; [now intros [= ->] | now intros ->]. Qed.

(** X12. On a successful snapshot [IsRegularFile] returns true exactly when
    the path is none of directory, symbolic link, named pipe, socket,
    device and character device, and the irregular bit (bit 19) is clear;
    so a regular file is never reported as any of the six. *)
Theorem IsRegularFile_iff_no_type (s : SystemPath) (fi : os.FileInfo) :
  stat s = Some fi -> err s = None ->
  (IsRegularFile s = Ok true <->
   IsDir s = Ok false /\ IsSymlink s = Ok false /\
   IsNamedPipe s = Ok false /\ IsSocket s = Ok false /\
   IsDevice s = Ok false /\ IsCharDevice s = Ok false /\
   N.testbit (os.Mode fi) 19 = false).
Proof.
  intros Hs He.
  destruct (type_bits s fi Hs He) as (Hd & Hl & Hp & Hk & Hv & Hc).
  rewrite Hd, Hl, Hp, Hk, Hv, Hc, !Ok_false_iff.
  rewrite (IsRegularFile_found s fi Hs He). unfold os.IsRegular.
  rewrite ModeType_bits, !N.land_lor_distr_r.
  rewrite Ok_true_iff, N.eqb_eq, !N.lor_eq_0_iff, !land_pow2_zero.
  tauto.
Qed.

Lemma IsRegularFile_iff_no_type_witness :
  let s := SystemInit Sample.member "/srv/report.txt" in
  stat s = Some Sample.report /\ err s = None /\
  (IsRegularFile s = Ok true <->
   IsDir s = Ok false /\ IsSymlink s = Ok false /\
   IsNamedPipe s = Ok false /\ IsSocket s = Ok false /\
   IsDevice s = Ok false /\ IsCharDevice s = Ok false /\
   N.testbit (os.Mode Sample.report) 19 = false).
Proof.
  cbv zeta. split; [reflexivity |]. split; [reflexivity |].
  apply (IsRegularFile_iff_no_type
           (SystemInit Sample.member "/srv/report.txt") Sample.report
           eq_refl eq_refl).
Defined.

(** ** Working directory, continued *)

(** X13. With the trailing separator requested, [GetCurrentDir] returns the
    empty string exactly when the lookup failed; without it, the empty
    string is returned when the lookup failed and also when the lookup
    succeeded with an empty directory. *)
Theorem GetCurrentDir_empty_iff (h : Host) :
  (GetCurrentDir h true = "" <-> exists e, cwd h = inr e) /\
  (GetCurrentDir h false = "" <->
   (exists e, cwd h = inr e) \/ cwd h = inl "").
Proof.
  unfold GetCurrentDir, os_Getwd.
  destruct (cwd h) as [dir | e]; split; split; intros H.
  - destruct dir; discriminate.
  - destruct H as [e H]. discriminate.
  - right. now subst dir.
  - destruct H as [[e H] | H]; [discriminate | now injection H].
  - now exists e.
  - reflexivity.
  - left. now exists e.
  - reflexivity.
Qed.

(** X14. The separator is appended unconditionally: after a successful
    lookup the result with the separator requested is the result without
    it followed by the one separator character, so dropping its last
    character gives the other back; a directory that already ends with the
    separator comes back ending with two, and the root ["/"] comes back as
    ["//"]. *)
Theorem GetCurrentDir_appends_unconditionally (h : Host) (dir : string) :
  cwd h = inl dir ->
  let sep := os.PathSeparator in
  GetCurrentDir h true = GetCurrentDir h false ++ String sep "" /\
  drop_last (GetCurrentDir h true) = GetCurrentDir h false /\
  (ends_with_separator dir = true ->
   exists stem, GetCurrentDir h true = stem ++ String sep (String sep "")) /\
  (dir = String sep "" -> GetCurrentDir h true = String sep (String sep "")).
Proof.
  intros H sep. unfold GetCurrentDir, os_Getwd. rewrite H.
  split; [reflexivity |]. split; [apply drop_last_app |]. split.
  - intros Hends. destruct (ends_with_separator_split dir Hends) as [stem ->].
    exists stem. rewrite append_assoc. reflexivity.
  - intros ->. reflexivity.
Qed.

Lemma GetCurrentDir_appends_unconditionally_witness :
  cwd Sample.slashed = inl "/srv/" /\
  ends_with_separator "/srv/" = true /\
  GetCurrentDir Sample.slashed true = GetCurrentDir Sample.slashed false ++ "/" /\
  drop_last (GetCurrentDir Sample.slashed true) = GetCurrentDir Sample.slashed false /\
  (exists stem, GetCurrentDir Sample.slashed true = stem ++ "//") /\
  cwd Sample.root = inl "/" /\
  GetCurrentDir Sample.root true = "//".
Proof.
  destruct (GetCurrentDir_appends_unconditionally Sample.slashed "/srv/" eq_refl)
    as [Happ [Hdrop [Htwo _]]].
  destruct (GetCurrentDir_appends_unconditionally Sample.root "/" eq_refl)
    as [_ [_ [_ Hroot]]].
  split; [reflexivity |]. split; [reflexivity |].
  split; [exact Happ |]. split; [exact Hdrop |].
  split; [apply Htwo; reflexivity |].
  split; [reflexivity |].
  apply Hroot. reflexivity.
Defined.
